(** * The Flutter install task (src/tasks/install/index.ts)

    A shallow embedding of the install task of vsts-flutter-tasks and the
    properties of its install-resolution workflow.

    The task is a sequential script over external collaborators (HTTP
    client, task library, tool cache, process runner).  The script is
    embedded as a program tree over the calls it makes; a run interprets the
    tree against an arbitrary world that answers each call with a value or
    an exception, and records the calls and task commands in a trace. *)

From Stdlib Require Import String List ZArith Bool.
From stdpp Require Import base option list gmap strings.
Import ListNotations.
Local Open Scope string_scope.
Local Open Scope list_scope.

(** ** Data model *)

(** One entry of [releaseData.releases]. *)
Module Release.
Record t : Type := Build {
  hash : string;
  version : string;
  channel : string;
  archive : string
}.
End Release.

(** The parsed manifest: [base_url], [current_release] (an object used as a
    map from channel to hash) and the [releases] array.  Fields are typed as
    the manifest's data model has them: every record carries its four
    strings, every current release is a hash string.  [current_release !! c]
    reads an own key; a member inherited from Object.prototype is no string
    and, like [undefined], is strictly equal to no hash. *)
Record ReleaseData : Type := {
  base_url : string;
  current_release : gmap string string;
  releases : list Release.t
}.

(** [task.TaskResult], the two members the task uses. *)
Inductive TaskResult : Type := Succeeded | Failed.

(** What a rejected promise or a [throw] carries. *)
Inductive exn : Type :=
| PropertyOfUndefined (prop : string)
    (* TypeError: Cannot read property 'prop' of undefined *)
| PathNotString
    (* TypeError of path.join on an argument that is not a string *)
| External (reason : string).
    (* thrown or rejected by a collaborator *)

(** Second argument of [task.setResult]: a message or the caught error. *)
Inductive ResultMessage : Type :=
| Msg (text : string)
| Err (error : exn).

(** Calls into collaborators, indexed by the type of what they return.
    [ToolRunner_exec tool args] stands for [task.tool(tool)], [arg(args)]
    and [exec()], which resolves to the exit code. *)
Inductive Ext : Type -> Type :=
| Request_get (url : string) : Ext string
| JSON_parse (text : string) : Ext ReleaseData
| Task_getInput (name : string) (required : bool) : Ext string
| Task_getVariable (name : string) : Ext (option string)
| Task_mkdirP (p : string) : Ext unit
| ToolRunner_exec (tool : string) (args : list string) : Ext Z
| Tool_findLocalTool (toolName versionSpec arch : string) : Ext (option string)
| Tool_downloadTool (url : string) : Ext string
| Tool_extractZip (file : string) : Ext string
| Tool_cacheDir (sourceDir toolName versionSpec arch : string) : Ext string
| Uuidv4 : Ext string.

(** Task-library commands: [task.debug], [task.setVariable] and
    [task.setResult] write a logging command for the agent; they return
    nothing and do not throw. *)
Inductive Cmd : Type :=
| Debug (message : string)
| SetVariable (name val : string)
| SetResult (result : TaskResult) (message : ResultMessage).

(** Constants of the host process: [os.platform()] and the pure string
    function behind [path.join]. *)
Class Host : Type := {
  os_platform : string;
  path_join_strings : list string -> string
}.

(** ** Programs *)

Inductive Prog (A : Type) : Type :=
| Ret (a : A)
| Throw (e : exn)
| Emit (c : Cmd) (k : Prog A)
| Call {X : Type} (op : Ext X) (k : X -> Prog A).

Arguments Ret {A} a.
Arguments Throw {A} e.
Arguments Emit {A} c k.
Arguments Call {A X} op k.

Fixpoint bind {A B : Type} (p : Prog A) (f : A -> Prog B) : Prog B :=
  match p with
  | Ret a => f a
  | Throw e => Throw e
  | Emit c k => Emit c (bind k f)
  | Call op k => Call op (fun x => bind (k x) f)
  end.

Definition call {X : Type} (op : Ext X) : Prog X := Call op Ret.
Definition emit (c : Cmd) : Prog unit := Emit c (Ret tt).

Declare Scope prog_scope.
Delimit Scope prog_scope with prog.
Notation "x <- p ;; q" := (bind p (fun x => q))
  (at level 100, p at next level, right associativity) : prog_scope.
Notation "p ;;; q" := (bind p (fun _ => q))
  (at level 100, right associativity) : prog_scope.
Local Open Scope prog_scope.

(** ** JavaScript helpers *)

(** Truthiness of a value that is a string or [undefined]. *)
Definition truthy (v : option string) : bool :=
  match v with
  | Some s => negb (String.eqb s "")
  | None => false
  end.

(** [${v}] in a template literal. *)
Definition show (v : option string) : string :=
  match v with
  | Some s => s
  | None => "undefined"
  end.

(** [item === v] for a string [item] and a string or [undefined] [v]. *)
Definition strict_eq (item : string) (v : option string) : bool :=
  match v with
  | Some s => String.eqb item s
  | None => false
  end.

(** [s.endsWith(suffix)] *)
Definition endsWith (s suffix : string) : bool :=
  let n := String.length s in
  let m := String.length suffix in
  (m <=? n)%nat && String.eqb (substring (n - m) m s) suffix.

(** [path.join(...)]: every argument must be a string. *)
Definition path_join `{Host} (args : list (option string)) : Prog string :=
  match mapM id args with
  | Some parts => Ret (path_join_strings parts)
  | None => Throw PathNotString
  end.

(** ** The task *)

Definition FLUTTER_TOOL_NAME : string := "Flutter".
Definition FLUTTER_EXE_RELATIVEPATH : string := "flutter/bin".
Definition FLUTTER_TOOL_PATH_ENV_VAR : string := "FlutterToolPath".

Definition findArchitecture `{Host} : string :=
  if String.eqb os_platform "darwin" then "macos"
  else if String.eqb os_platform "linux" then "linux"
  else "windows".

Definition getReleaseData (arch : string) : Prog ReleaseData :=
  let releasesUrl :=
    "https://storage.googleapis.com/flutter_infra/releases/releases_"
      +:+ arch +:+ ".json" in
  emit (Debug ("Finding latest version from '" +:+ releasesUrl +:+ "'")) ;;;
  response <- call (Request_get releasesUrl) ;;
  call (JSON_parse response).

Definition findLatestRelease (releaseData : ReleaseData) (channel : string)
  : Prog (option Release.t) :=
  let currentHash := current_release releaseData !! channel in
  emit (Debug ("Last version hash '" +:+ show currentHash +:+ "'")) ;;;
  let current :=
    List.find (fun item => strict_eq (Release.hash item) currentHash)
              (releases releaseData) in
  Ret current.

Definition findVersionRelease (releaseData : ReleaseData)
    (channel version : string) : Prog (option Release.t) :=
  emit (Debug ("Requested channel and version '" +:+ channel +:+ " "
                 +:+ version +:+ "'")) ;;;
  let release :=
    List.find (fun item => String.eqb (Release.version item) version
                           && String.eqb (Release.channel item) channel)
              (releases releaseData) in
  (if release is None
   then emit (Debug "The requested version of specified channel was not found")
   else Ret tt) ;;;
  Ret release.

Definition _createExtractFolder `{Host} (dest : option string) : Prog string :=
  dest <- (if negb (truthy dest) then
             root <- call (Task_getVariable "Agent.TempDirectory") ;;
             u <- call Uuidv4 ;;
             path_join [root; Some u]
           else Ret (default "" dest)) ;;
  call (Task_mkdirP dest) ;;;
  Ret dest.

Definition extractTarXZ `{Host} (file : string) (destination : option string)
  : Prog string :=
  dest <- _createExtractFolder destination ;;
  call (ToolRunner_exec "tar" ["-xJC"; dest; "-f"; file]) ;;;
  Ret dest.

Definition downloadAndCacheSdk `{Host}
    (downloadUrl versionSpec channel arch : string) : Prog unit :=
  emit (Debug ("Starting download archive from '" +:+ downloadUrl +:+ "'")) ;;;
  bundleZip <- call (Tool_downloadTool downloadUrl) ;;
  emit (Debug ("Succeeded to download '" +:+ bundleZip +:+ "' archive from '"
                 +:+ downloadUrl +:+ "'")) ;;;
  bundleDir <-
    (if endsWith downloadUrl ".zip" then
       emit (Debug ("Extracting '" +:+ downloadUrl +:+ "' archive as zip")) ;;;
       call (Tool_extractZip bundleZip)
     else
       emit (Debug ("Extracting '" +:+ downloadUrl +:+ "' archive as tar.xz")) ;;;
       extractTarXZ bundleZip None) ;;
  emit (Debug ("Extracted to '" +:+ bundleDir +:+ "' '" +:+ downloadUrl
                 +:+ "' archive")) ;;;
  emit (Debug ("Adding '" +:+ bundleDir +:+ "' to cache ("
                 +:+ FLUTTER_TOOL_NAME +:+ "," +:+ versionSpec +:+ ", "
                 +:+ arch +:+ ")")) ;;;
  call (Tool_cacheDir bundleDir FLUTTER_TOOL_NAME versionSpec arch) ;;;
  Ret tt.

Definition main `{Host} : Prog unit :=
  let arch := findArchitecture in
  releaseData <- getReleaseData arch ;;
  let _baseUrl := base_url releaseData in
  channel <- call (Task_getInput "channel" true) ;;
  version <- call (Task_getInput "version" true) ;;
  releaseInfo <-
    (if String.eqb version "latest"
     then findLatestRelease releaseData channel
     else findVersionRelease releaseData channel version) ;;
  match releaseInfo with
  | None => Throw (PropertyOfUndefined "archive")
  | Some releaseInfo =>
    let urlRelative := Release.archive releaseInfo in
    emit (Debug ("Trying to get (" +:+ FLUTTER_TOOL_NAME +:+ ","
                   +:+ Release.version releaseInfo +:+ ", " +:+ arch
                   +:+ ") tool from local cache")) ;;;
    toolPath <- call (Tool_findLocalTool FLUTTER_TOOL_NAME
                        (Release.version releaseInfo) arch) ;;
    toolPath <-
      (if negb (truthy toolPath) then
         downloadAndCacheSdk (_baseUrl +:+ "/" +:+ urlRelative)
           (Release.version releaseInfo) channel arch ;;;
         emit (Debug ("Trying again to get (" +:+ FLUTTER_TOOL_NAME +:+ ","
                        +:+ Release.version releaseInfo +:+ ", " +:+ arch
                        +:+ ") tool from local cache")) ;;;
         call (Tool_findLocalTool FLUTTER_TOOL_NAME
                 (Release.version releaseInfo) arch)
       else Ret toolPath) ;;
    fullFlutterPath <- path_join [toolPath; Some FLUTTER_EXE_RELATIVEPATH] ;;
    emit (Debug ("Set " +:+ FLUTTER_TOOL_PATH_ENV_VAR +:+ " with '"
                   +:+ fullFlutterPath +:+ "'")) ;;;
    emit (SetVariable FLUTTER_TOOL_PATH_ENV_VAR fullFlutterPath) ;;;
    emit (SetResult Succeeded (Msg "Installed"))
  end.

(** ** Runs *)

(** A world answers every call with a value or an exception and moves to a
    next state; nothing else is assumed about it. *)
Class Collaborators (W : Type) : Type :=
  handle : forall X : Type, Ext X -> W -> (exn + X) * W.
Arguments handle {W _ X} op w.

(** What a run leaves behind, in order. *)
Inductive Event : Type :=
| EvCmd (c : Cmd)
| EvCall {X : Type} (op : Ext X) (answer : exn + X)
| EvThrow (e : exn).

Record Run (W A : Type) : Type := MkRun {
  outcome : exn + A;
  trace : list Event;
  world : W
}.
Arguments MkRun {W A} outcome trace world.
Arguments outcome {W A} r.
Arguments trace {W A} r.
Arguments world {W A} r.

Fixpoint run {W} `{Collaborators W} {A : Type} (p : Prog A) (w : W)
  : Run W A :=
  match p with
  | Ret a => MkRun (inr a) [] w
  | Throw e => MkRun (inl e) [EvThrow e] w
  | Emit c k =>
      let r := run k w in
      MkRun (outcome r) (EvCmd c :: trace r) (world r)
  | Call op k =>
      match handle op w with
      | (inl e, w') => MkRun (inl e) [EvCall op (inl e)] w'
      | (inr x, w') =>
          let r := run (k x) w' in
          MkRun (outcome r) (EvCall op (inr x) :: trace r) (world r)
      end
  end.

(** [p.catch(handler)] *)
Definition run_catch {W} `{Collaborators W} {A : Type}
    (p : Prog A) (handler : exn -> Prog A) (w : W) : Run W A :=
  let r := run p w in
  match outcome r with
  | inr _ => r
  | inl error =>
      let r' := run (handler error) (world r) in
      MkRun (outcome r') (trace r ++ trace r') (world r')
  end.

(** The module body: [main().catch(error => task.setResult(Failed, error))]. *)
Definition task `{Host} {W} `{Collaborators W} (w : W) : Run W unit :=
  run_catch main (fun error => emit (SetResult Failed (Err error))) w.

(** ** Observations on traces *)

(** The exception an event raised, if any. *)
Definition ev_error (ev : Event) : option exn :=
  match ev with
  | EvCall _ (inl e) => Some e
  | EvThrow e => Some e
  | _ => None
  end.

Definition raised (tr : list Event) : list exn :=
  omap ev_error tr.

(** [task.setVariable] commands, as (name, value). *)
Definition variables (tr : list Event) : list (string * string) :=
  omap (fun ev => match ev with
                  | EvCmd (SetVariable n v) => Some (n, v)
                  | _ => None
                  end) tr.

(** [task.setResult] commands. *)
Definition results (tr : list Event) : list (TaskResult * ResultMessage) :=
  omap (fun ev => match ev with
                  | EvCmd (SetResult r m) => Some (r, m)
                  | _ => None
                  end) tr.

(** A tool-cache key: (tool name, version, architecture). *)
Definition CacheKey : Type := string * string * string.

(** The shape of a call, without its answer. *)
Inductive Request : Type :=
| RqGet (url : string)
| RqParse (text : string)
| RqInput (name : string) (required : bool)
| RqVariable (name : string)
| RqMkdirP (p : string)
| RqExec (tool : string) (args : list string)
| RqFind (key : CacheKey)
| RqDownload (url : string)
| RqExtractZip (file : string)
| RqCacheDir (sourceDir : string) (key : CacheKey)
| RqUuid.

Definition request_of {X : Type} (op : Ext X) : Request :=
  match op with
  | Request_get url => RqGet url
  | JSON_parse text => RqParse text
  | Task_getInput name required => RqInput name required
  | Task_getVariable name => RqVariable name
  | Task_mkdirP p => RqMkdirP p
  | ToolRunner_exec tool args => RqExec tool args
  | Tool_findLocalTool n v a => RqFind (n, v, a)
  | Tool_downloadTool url => RqDownload url
  | Tool_extractZip file => RqExtractZip file
  | Tool_cacheDir d n v a => RqCacheDir d (n, v, a)
  | Uuidv4 => RqUuid
  end.

(** The calls of a trace, in order; commands and throws are dropped. *)
Definition requests (tr : list Event) : list Request :=
  omap (fun ev => match ev with
                  | EvCall op _ => Some (request_of op)
                  | _ => None
                  end) tr.

(** The answers of the tool-cache lookups of a trace, with their keys. *)
Definition lookup_of (ev : Event) : option (CacheKey * (exn + option string)) :=
  match ev with
  | EvCall op answer =>
      match op in Ext X return exn + X -> option _ with
      | Tool_findLocalTool n v a => fun answer => Some ((n, v, a), answer)
      | _ => fun _ => None
      end answer
  | _ => None
  end.

Definition lookups (tr : list Event)
  : list (CacheKey * (exn + option string)) :=
  omap lookup_of tr.

(** The keys of every lookup and every store of a trace. *)
Definition cache_keys (tr : list Event) : list CacheKey :=
  omap (fun rq => match rq with
                  | RqFind key => Some key
                  | RqCacheDir _ key => Some key
                  | _ => None
                  end) (requests tr).

Definition is_download (rq : Request) : bool :=
  match rq with RqDownload _ => true | _ => false end.

Definition is_extraction (rq : Request) : bool :=
  match rq with
  | RqExtractZip _ | RqExec _ _ | RqMkdirP _ | RqUuid => true
  | _ => false
  end.

Definition is_store (rq : Request) : bool :=
  match rq with RqCacheDir _ _ => true | _ => false end.

Definition is_unzip (rq : Request) : bool :=
  match rq with RqExtractZip _ => true | _ => false end.

(** The calls of the tar path: temp root, identifier, mkdir and tar. *)
Definition is_tar_path (rq : Request) : bool :=
  match rq with
  | RqExec _ _ | RqMkdirP _ | RqUuid | RqVariable _ => true
  | _ => false
  end.

(** The manifests a trace parsed, the inputs it read and the stores it
    made, with their answers. *)
Definition parsed_of (ev : Event) : option ReleaseData :=
  match ev with
  | EvCall op answer =>
      match op in Ext X return exn + X -> option ReleaseData with
      | JSON_parse _ => fun answer => if answer is inr data then Some data else None
      | _ => fun _ => None
      end answer
  | _ => None
  end.

Definition parsed (tr : list Event) : list ReleaseData := omap parsed_of tr.

Definition input_of (ev : Event) : option (string * string) :=
  match ev with
  | EvCall op answer =>
      match op in Ext X return exn + X -> option (string * string) with
      | Task_getInput name _ =>
          fun answer => if answer is inr v then Some (name, v) else None
      | _ => fun _ => None
      end answer
  | _ => None
  end.

Definition inputs_read (tr : list Event) : list (string * string) :=
  omap input_of tr.

Definition store_of (ev : Event) : option (string * CacheKey * (exn + string)) :=
  match ev with
  | EvCall op answer =>
      match op in Ext X return exn + X -> option _ with
      | Tool_cacheDir d n v a => fun answer => Some (d, (n, v, a), answer)
      | _ => fun _ => None
      end answer
  | _ => None
  end.

Definition stores (tr : list Event)
  : list (string * CacheKey * (exn + string)) :=
  omap store_of tr.

(** The value of a program that only writes commands. *)
Fixpoint pure_result {A : Type} (p : Prog A) : option A :=
  match p with
  | Ret a => Some a
  | Emit _ k => pure_result k
  | _ => None
  end.

(** SELECT_RELEASE, as [main] branches on the requested version. *)
Definition select_release (releaseData : ReleaseData)
    (channel version : string) : option (option Release.t) :=
  pure_result (if String.eqb version "latest"
               then findLatestRelease releaseData channel
               else findVersionRelease releaseData channel version).

(** The downloads and the unzips of a trace, with their answers. *)
Definition download_of (ev : Event) : option (string * (exn + string)) :=
  match ev with
  | EvCall op answer =>
      match op in Ext X return exn + X -> option _ with
      | Tool_downloadTool url => fun answer => Some (url, answer)
      | _ => fun _ => None
      end answer
  | _ => None
  end.

Definition downloads (tr : list Event) : list (string * (exn + string)) :=
  omap download_of tr.

Definition unzip_of (ev : Event) : option (string * (exn + string)) :=
  match ev with
  | EvCall op answer =>
      match op in Ext X return exn + X -> option _ with
      | Tool_extractZip file => fun answer => Some (file, answer)
      | _ => fun _ => None
      end answer
  | _ => None
  end.

Definition unzips (tr : list Event) : list (string * (exn + string)) :=
  omap unzip_of tr.

(** The URL [getReleaseData] reads for an architecture. *)
Definition releasesUrl (arch : string) : string :=
  "https://storage.googleapis.com/flutter_infra/releases/releases_"
    +:+ arch +:+ ".json".

(** ** Vocabulary of the specification *)

(** [x] is the first element of [l] that satisfies [P]. *)
Definition first_such {A : Type} (P : A -> Prop) (l : list A) (x : A) : Prop :=
  exists pre post, l = pre ++ x :: post /\ P x /\ Forall (fun y => ~ P y) pre.

(** The record [item] answers the request (channel, version): by the hash
    of the channel's current release when the version is "latest", by its
    version and channel fields otherwise. *)
Definition answers_request (releaseData : ReleaseData)
    (channel version : string) (item : Release.t) : Prop :=
  if String.eqb version "latest"
  then current_release releaseData !! channel = Some (Release.hash item)
  else Release.version item = version /\ Release.channel item = channel.

(** The error taxonomy's SelectionError: no release matches the request.
    In this task it shows as the dereference of the absent record at
    [releaseInfo.archive]. *)
Definition SelectionError (e : exn) : Prop :=
  e = PropertyOfUndefined "archive".

(** The taxonomy's CacheInconsistencyError: the lookup after the store
    still misses, and [path.join] receives [undefined]. *)
Definition CacheInconsistencyError (e : exn) : Prop :=
  e = PathNotString.

(** The two terminal states of a run. *)
Definition run_succeeded (tr : list Event) : Prop :=
  (exists p, variables tr = [(FLUTTER_TOOL_PATH_ENV_VAR, p)]) /\
  results tr = [(Succeeded, Msg "Installed")].

Definition run_failed (tr : list Event) (e : exn) : Prop :=
  variables tr = [] /\ results tr = [(Failed, Err e)].

(** Modelled from the spec: the contract of the tool cache
    (vsts-task-tool-lib, not part of this repository), section 4.4:
    calling [find] after a successful [store] with the same key must return
    the stored path. *)
Definition cache_contract (W : Type) `{Collaborators W} : Prop :=
  forall d n v a (w w' : W) p,
    handle (Tool_cacheDir d n v a) w = (inr p, w') ->
    exists p' w'',
      handle (Tool_findLocalTool n v a) w' = (inr (Some p'), w'') /\ p' <> "".

(** The run [r], seen after the events [pre] (latest first). *)
Definition after {W A : Type} (pre : list Event) (r : Run W A) : Run W A :=
  MkRun (outcome r) (rev_append pre (trace r)) (world r).

(** ** A reference world

    A small deterministic world, used to replay the end-to-end scenarios. *)

Record World : Type := MkWorld {
  inputs : gmap string string;           (* task inputs *)
  web : gmap string string;              (* url to body or archive *)
  json : gmap string ReleaseData;        (* what JSON.parse reads *)
  agent_variables : gmap string string;  (* task variables *)
  tool_cache : gmap CacheKey string;     (* the tool cache *)
  uuid_counter : nat
}.

Definition posix_join (parts : list string) : string :=
  String.concat "/" parts.

Definition linux_host : Host :=
  {| os_platform := "linux"; path_join_strings := posix_join |}.

Definition cache_path (key : CacheKey) : string :=
  posix_join ["/cache"; key.1.1; key.1.2; key.2].

(** Modelled from the spec: the tool cache (vsts-task-tool-lib, not part of
    this repository).  Section 4.4: [find(name, version, arch)] returns a
    path or is absent, [store(sourceDir, name, version, arch)] registers the
    directory, and [find] after a successful [store] with the same key
    returns the stored path.  The registry is a map keyed by
    (tool name, version, architecture). *)
Definition cache_find (key : CacheKey) (w : World) : option string :=
  tool_cache w !! key.

(** Modelled from the spec: the tool cache, [store] (section 4.4). *)
Definition cache_store (key : CacheKey) (w : World) : World :=
  MkWorld (inputs w) (web w) (json w) (agent_variables w)
          (<[key := cache_path key]> (tool_cache w)) (uuid_counter w).

Definition next_uuid (w : World) : string * World :=
  (String.concat "" (repeat "u" (S (uuid_counter w))),
   MkWorld (inputs w) (web w) (json w) (agent_variables w) (tool_cache w)
           (S (uuid_counter w))).

(** The answers of the reference world.  With [persists = false] a store
    reports success without registering anything: a cache that breaks its
    contract. *)
Definition answer (persists : bool) : Collaborators World :=
  fun X (op : Ext X) (w : World) =>
    match op in Ext X return (exn + X) * World with
    | Request_get url =>
        (match web w !! url with
         | Some body => inr body
         | None => inl (External ("GET " +:+ url))
         end, w)
    | JSON_parse text =>
        (match json w !! text with
         | Some data => inr data
         | None => inl (External "SyntaxError")
         end, w)
    | Task_getInput name required =>
        (match inputs w !! name with
         | Some v => inr v
         | None => if required then inl (External ("Input required: " +:+ name))
                   else inr ""
         end, w)
    | Task_getVariable name => (inr (agent_variables w !! name), w)
    | Task_mkdirP p => (inr tt, w)
    | ToolRunner_exec tool args => (inr 0%Z, w)
    | Tool_findLocalTool n v a => (inr (cache_find (n, v, a) w), w)
    | Tool_downloadTool url =>
        (match web w !! url with
         | Some _ => inr ("/tmp/download-" +:+ (next_uuid w).1)
         | None => inl (External ("GET " +:+ url))
         end, (next_uuid w).2)
    | Tool_extractZip file => (inr (file +:+ ".unzipped"), w)
    | Tool_cacheDir d n v a =>
        (inr (cache_path (n, v, a)),
         if persists then cache_store (n, v, a) w else w)
    | Uuidv4 => (inr (next_uuid w).1, (next_uuid w).2)
    end.

Definition world_handle : Collaborators World := answer true.
Definition lossy_handle : Collaborators World := answer false.

(** The manifest of end-to-end scenario 1, with a second release that is
    shipped as a tar.xz archive. *)
Definition scenario_manifest : ReleaseData :=
  {| base_url := "https://example.org/releases";
     current_release := {[ "stable" := "h1" ]};
     releases := [Release.Build "h1" "1.2.3" "stable" "a.zip";
                  Release.Build "h0" "1.0.0" "stable" "b.tar.xz"] |}.

Definition manifest_url : string :=
  "https://storage.googleapis.com/flutter_infra/releases/releases_linux.json".

Definition scenario_world (channel version : string)
    (cached : gmap CacheKey string) : World :=
  {| inputs := {[ "channel" := channel; "version" := version ]};
     web := {[ manifest_url := "manifest";
               "https://example.org/releases/a.zip" := "zip bytes";
               "https://example.org/releases/b.tar.xz" := "xz bytes" ]};
     json := {[ "manifest" := scenario_manifest ]};
     agent_variables := {[ "Agent.TempDirectory" := "/agent/tmp" ]};
     tool_cache := cached;
     uuid_counter := 0 |}.

(** The same world with no network. *)
Definition offline_world : World :=
  {| inputs := {[ "channel" := "stable"; "version" := "latest" ]};
     web := ∅;
     json := ∅;
     agent_variables := ∅;
     tool_cache := ∅;
     uuid_counter := 0 |}.

(** The run of the task on a Linux host in the reference world. *)
Definition replay (handler : Collaborators World) (w : World) : Run World unit :=
  @task linux_host World handler w.

(** * Properties *)

(** ** Exceptions end a program *)

Section Runs.
Context {W : Type} `{Collaborators W}.

(** A program has no handler of its own: the first exception ends it. *)
Lemma run_failstop {A : Type} (p : Prog A) (w : W) :
  match outcome (run p w) with
  | inr _ => raised (trace (run p w)) = []
  | inl e => exists pre ev,
      trace (run p w) = pre ++ [ev] /\ ev_error ev = Some e /\ raised pre = []
  end.
Proof.
  revert w; induction p as [a|e|c k IH|X op k IH]; intros w; cbn.
  - done.
  - by exists [], (EvThrow e).
  - specialize (IH w). destruct (outcome (run k w)) as [e|a]; [|done].
    destruct IH as (pre & ev & -> & ? & ?). by exists (EvCmd c :: pre), ev.
  - destruct (handle op w) as [[e|x] w'] eqn:E; cbn.
    + by exists [], (EvCall op (inl e)).
    + specialize (IH x w'). destruct (outcome (run (k x) w')) as [e|a]; [|done].
      destruct IH as (pre & ev & -> & ? & ?).
      by exists (EvCall op (inr x) :: pre), ev.
Qed.

Lemma raised_app (l1 l2 : list Event) :
  raised (l1 ++ l2) = raised l1 ++ raised l2.
Proof. apply omap_app. Qed.

Lemma raised_nil_no_error (pre post : list Event) (ev : Event) (e : exn) :
  raised (pre ++ ev :: post) = [] -> ev_error ev = Some e -> False.
Proof.
  rewrite raised_app. unfold raised at 2. cbn. intros Hnil He.
  rewrite He in Hnil. by destruct (raised pre).
Qed.

Lemma failstop_split (l pre post : list Event) (last c ev : Event) (e : exn) :
  raised l = [] -> ev_error c = None ->
  l ++ [last; c] = pre ++ ev :: post -> ev_error ev = Some e ->
  post = [c] /\ ev = last.
Proof.
  revert pre; induction l as [|x l IH]; intros pre Hl Hc Heq He.
  - destruct pre as [|a [|b pre]]; cbn in Heq.
    + by inversion Heq.
    + inversion Heq; subst. congruence.
    + inversion Heq as [[Ha Hb Hnil]]. by destruct pre.
  - unfold raised in Hl. cbn in Hl.
    destruct (ev_error x) eqn:Hx; [done|]. fold (raised l) in Hl.
    destruct pre as [|a pre]; cbn in Heq; inversion Heq; subst.
    + congruence.
    + eauto.
Qed.

(** ** Symbolic execution of a program

    A run is followed call by call: each step consumes the head of the
    program and pushes its event on the prefix. *)

Lemma after_start {A : Type} (r x : Run W A) : r = x -> r = after [] x.
Proof. intros ->. by destruct x. Qed.

Lemma step_ret {A : Type} pre (p : Prog A) a (w : W) r :
  p = Ret a -> r = after pre (run p w) -> r = MkRun (inr a) (rev pre) w.
Proof.
  intros -> ->. unfold after. cbn. by rewrite rev_append_rev, app_nil_r.
Qed.

Lemma step_throw {A : Type} pre (p : Prog A) e (w : W) r :
  p = Throw e -> r = after pre (run p w) ->
  r = MkRun (inl e) (rev (EvThrow e :: pre)) w.
Proof. intros -> ->. unfold after. cbn. by rewrite rev_append_rev. Qed.

Lemma step_emit {A : Type} pre (p : Prog A) c k (w : W) r :
  p = Emit c k -> r = after pre (run p w) ->
  r = after (EvCmd c :: pre) (run k w).
Proof. by intros -> ->. Qed.

Lemma step_call {A X : Type} pre (p : Prog A) (op : Ext X) k (w : W) r :
  p = Call op k -> r = after pre (run p w) ->
  (exists e w', handle op w = (inl e, w') /\
                r = MkRun (inl e) (rev (EvCall op (inl e) :: pre)) w') \/
  (exists x w', handle op w = (inr x, w') /\
                r = after (EvCall op (inr x) :: pre) (run (k x) w')).
Proof.
  intros -> ->. unfold after. cbn.
  destruct (handle op w) as [[e|x] w'] eqn:E; [left|right]; eexists _, _.
  - split; [done|]. cbn. by rewrite rev_append_rev.
  - done.
Qed.

End Runs.

(** The program with its head exposed through the binds around it. *)
Ltac expose p :=
  let p' := eval hnf in p in
  lazymatch p' with
  | bind ?q ?f => let q' := expose q in constr:(bind q' f)
  | _ => p'
  end.

(** The test a program is stuck on. *)
Ltac scrutinee p :=
  lazymatch p with
  | bind ?q _ => scrutinee q
  | match ?c with true => _ | false => _ end => c
  | match ?c with Some _ => _ | None => _ end =>
      lazymatch c with
      | mapM id (?v :: _) => v
      | _ => c
      end
  end.

Ltac exec_step Hr :=
  lazymatch type of Hr with
  | ?r = after ?pre (run ?p ?w) =>
      let p' := eval hnf in p in
      lazymatch p' with
      | Ret ?a => apply (step_ret pre p a w _ eq_refl) in Hr
      | Throw ?e => apply (step_throw pre p e w _ eq_refl) in Hr
      | Emit ?c ?k => apply (step_emit pre p c k w _ eq_refl) in Hr
      | Call ?op ?k =>
          apply (step_call pre p op k w _ eq_refl) in Hr;
          destruct Hr as [(?e & ?w & ?E & Hr)|(?x & ?w & ?E & Hr)]
      | _ =>
          let p'' := expose p in
          let c := scrutinee p'' in
          change (r = after pre (run p'' w)) in Hr;
          revert Hr;
          first [ is_var c; destruct c | destruct c eqn:? ];
          intros Hr
      end
  end.

(** Follow every run of [p] from [w] to its end and read the result. *)
Ltac exec p w :=
  let r := fresh "r" in
  let Hr := fresh "Hr" in
  remember (run p w) as r eqn:Hr; apply after_start in Hr;
  repeat exec_step Hr; subst r; cbn.

(** Two answers to the same call in the same world are one answer. *)
Ltac same_answers :=
  repeat match goal with
  | H1 : handle ?op ?w = _, H2 : handle ?op ?w = _ |- _ =>
      rewrite H1 in H2; simplify_eq
  end.

Ltac rewrite_version_test :=
  match goal with Hb : String.eqb _ "latest" = _ |- _ => rewrite Hb end.

(** ** The release selector *)

Section Find.
Context {A : Type} (f : A -> bool).

Lemma find_first (l : list A) (x : A) :
  List.find f l = Some x -> first_such (fun y => f y = true) l x.
Proof.
  induction l as [|y l IH]; cbn; [done|].
  destruct (f y) eqn:Hy; intros Hx.
  - inversion Hx; subst. by exists [], l.
  - destruct (IH Hx) as (pre & post & -> & ? & ?).
    exists (y :: pre), post. repeat split; [done|].
    constructor; [congruence|done].
Qed.

Lemma find_absent (l : list A) :
  List.find f l = None -> Forall (fun y => f y = false) l.
Proof.
  induction l as [|y l IH]; cbn; [by constructor|].
  destruct (f y) eqn:Hy; [done|]. intros Hx. constructor; auto.
Qed.

End Find.

Lemma first_such_iff {A : Type} (P Q : A -> Prop) (l : list A) (x : A) :
  (forall y, P y <-> Q y) -> first_such P l x -> first_such Q l x.
Proof.
  intros HPQ (pre & post & -> & Hx & Hpre). exists pre, post.
  repeat split; [by apply HPQ|].
  eapply Forall_impl; [exact Hpre|]. cbn. intros y Hy HQ. by apply Hy, HPQ.
Qed.

Lemma latest_found (releaseData : ReleaseData) (channel : string)
    (item : Release.t) :
  List.find (fun item => strict_eq (Release.hash item)
                           (current_release releaseData !! channel))
            (releases releaseData) = Some item ->
  current_release releaseData !! channel = Some (Release.hash item) /\
  item ∈ releases releaseData.
Proof.
  intros Hf. destruct (find_some _ _ Hf) as [Hin Heq].
  split; [|by apply list_elem_of_In].
  destruct (current_release releaseData !! channel) as [h|]; [|done].
  cbn in Heq. apply String.eqb_eq in Heq. by subst.
Qed.

Lemma version_found (releaseData : ReleaseData) (channel version : string)
    (item : Release.t) :
  List.find (fun item => String.eqb (Release.version item) version
                         && String.eqb (Release.channel item) channel)
            (releases releaseData) = Some item ->
  (Release.version item = version /\ Release.channel item = channel) /\
  item ∈ releases releaseData.
Proof.
  intros Hf. destruct (find_some _ _ Hf) as [Hin Heq].
  split; [|by apply list_elem_of_In].
  apply andb_true_iff in Heq. by rewrite !String.eqb_eq in Heq.
Qed.

(** C6: the platform resolver is a total function of the host operating
    system identifier: "darwin" gives "macos", "linux" gives "linux", every
    other identifier gives "windows"; the result is always one of the three
    and there is no error path. *)
Theorem findArchitecture_total (host : Host) :
  ((os_platform = "darwin" /\ findArchitecture = "macos") \/
   (os_platform = "linux" /\ findArchitecture = "linux") \/
   (os_platform <> "darwin" /\ os_platform <> "linux" /\
    findArchitecture = "windows")) /\
  In findArchitecture ["macos"; "linux"; "windows"].
Proof.
  unfold findArchitecture.
  destruct (String.eqb_spec os_platform "darwin") as [Hd|Hd].
  - split; [by left|]. cbn; auto.
  - destruct (String.eqb_spec os_platform "linux") as [Hl|Hl].
    + split; [right; by left|]. cbn; auto.
    + split; [right; by right|]. cbn; auto.
Qed.

(** C3: findLatestRelease reads the hash of [current_release[channel]] and
    returns the first record of [releases] whose hash equals it; when the
    channel key is absent or no record has that hash, it returns an absent
    result, and it never raises. *)
Theorem findLatestRelease_first_by_hash {W : Type} `{Collaborators W}
    (releaseData : ReleaseData) (channel : string) (w : W) :
  let r := run (findLatestRelease releaseData channel) w in
  raised (trace r) = [] /\ requests (trace r) = [] /\
  match current_release releaseData !! channel with
  | Some h =>
      (exists item, outcome r = inr (Some item) /\
         first_such (fun x => Release.hash x = h) (releases releaseData) item)
      \/ (outcome r = inr None /\
          Forall (fun x => Release.hash x <> h) (releases releaseData))
  | None => outcome r = inr None
  end.
Proof.
  cbn. repeat split.
  destruct (current_release releaseData !! channel) as [h|] eqn:Hc; cbn.
  - destruct (List.find _ _) as [item|] eqn:Hf.
    + left. exists item. split; [done|].
      eapply first_such_iff; [|by apply find_first in Hf].
      intros y. cbn. by rewrite String.eqb_eq.
    + right. split; [done|].
      eapply Forall_impl; [by apply find_absent in Hf|].
      cbn. intros y. by rewrite String.eqb_neq.
  - f_equal. by induction (releases releaseData).
Qed.

(** C4: findVersionRelease returns the first record, in manifest order,
    whose version field equals the requested version and whose channel
    field equals the requested channel, and an absent result when no record
    matches both fields. *)
Theorem findVersionRelease_first_match {W : Type} `{Collaborators W}
    (releaseData : ReleaseData) (channel version : string) (w : W) :
  let r := run (findVersionRelease releaseData channel version) w in
  let matches x := Release.version x = version /\ Release.channel x = channel in
  raised (trace r) = [] /\ requests (trace r) = [] /\
  ((exists item, outcome r = inr (Some item) /\
      first_such matches (releases releaseData) item)
   \/ (outcome r = inr None /\
       Forall (fun x => ~ matches x) (releases releaseData))).
Proof.
  cbn. destruct (List.find _ _) as [item|] eqn:Hf; cbn; repeat split.
  - left. exists item. split; [done|].
    eapply first_such_iff; [|by apply find_first in Hf].
    intros y. cbn. by rewrite andb_true_iff, !String.eqb_eq.
  - right. split; [done|].
    eapply Forall_impl; [by apply find_absent in Hf|].
    cbn. intros y. rewrite andb_false_iff, !String.eqb_neq. tauto.
Qed.

(** ** The installer *)

Section Installer.
Context `{Host} {W : Type} `{Collaborators W}.

Lemma task_trace (w : W) :
  trace (task w) =
  trace (run main w) ++
  match outcome (run main w) with
  | inl e => [EvCmd (SetResult Failed (Err e))]
  | inr _ => []
  end.
Proof.
  unfold task, run_catch.
  generalize (run main w). intros [[e|a] tr w']; cbn; [done|].
  by rewrite app_nil_r.
Qed.

(** Every exception of a run is followed by the failure report and by
    nothing else. *)
Lemma task_failstop (w : W) (pre post : list Event) (ev : Event) (e : exn) :
  trace (task w) = pre ++ ev :: post -> ev_error ev = Some e ->
  post = [EvCmd (SetResult Failed (Err e))].
Proof.
  rewrite task_trace. pose proof (run_failstop main w) as Hfs. revert Hfs.
  generalize (run main w). intros [[e'|[]] tr w']; cbn.
  - intros (pre' & last & -> & Hlast & Hpre').
    rewrite <- app_assoc. cbn. intros Heq He.
    destruct (failstop_split pre' pre post last
                (EvCmd (SetResult Failed (Err e'))) ev e Hpre' eq_refl Heq He)
      as [-> ->].
    congruence.
  - rewrite app_nil_r. intros Hfs -> He.
    destruct (raised_nil_no_error _ _ _ _ Hfs He).
Qed.

End Installer.

Lemma truthy_path (p : string) : p <> "" -> truthy (Some p) = true.
Proof. intros Hp. cbn. by apply String.eqb_neq in Hp as ->. Qed.

Ltac hit_is_truthy :=
  match goal with
  | Hp : ?p <> "", Ht : context [truthy (Some ?p)] |- _ =>
      rewrite (truthy_path p Hp) in Ht
  end.

(** A successful store makes the next lookup of its key a hit. *)
Ltac use_contract Hcache :=
  match goal with
  | Hs : handle (Tool_cacheDir _ _ _ _) _ = (inr _, _),
    Hl : handle (Tool_findLocalTool _ _ _) _ = _ |- _ =>
      let p := fresh "p" in let w := fresh "w" in
      let Hfind := fresh "Hfind" in let Hp := fresh "Hp" in
      destruct (Hcache _ _ _ _ _ _ _ Hs) as (p & w & Hfind & Hp);
      rewrite Hfind in Hl; clear Hcache
  end.

(** The reference cache honours the contract of the tool cache. *)
Lemma world_handle_contract : @cache_contract World world_handle.
Proof.
  intros d n v a w w' p Hstore. cbv [handle world_handle answer] in *.
  inversion Hstore; subst.
  exists (cache_path (n, v, a)), (cache_store (n, v, a) w). split; [|done].
  unfold cache_find, cache_store. cbn. by rewrite lookup_insert_eq.
Qed.

(** C1: every run of the installer ends in exactly one of two states:
    FlutterToolPath is published and the result is Succeeded, or nothing is
    published and the result is Failed carrying the error that was raised;
    an exception at any step is followed by the failure report only, so no
    step is retried or recovered and there is no partial success. *)
Theorem installer_outcome `{Host} {W : Type} `{Collaborators W} (w : W) :
  let tr := trace (task w) in
  ((run_succeeded tr /\ raised tr = [] /\ outcome (run main w) = inr tt /\
    forall e, ~ run_failed tr e)
   \/ (exists e, run_failed tr e /\ raised tr = [e] /\
                 outcome (run main w) = inl e /\ ~ run_succeeded tr))
  /\ (forall pre ev post e,
        tr = pre ++ ev :: post -> ev_error ev = Some e ->
        post = [EvCmd (SetResult Failed (Err e))]).
Proof.
  cbv zeta. split; [|intros pre ev post e; apply task_failstop].
  unfold run_succeeded, run_failed, task, run_catch.
  exec main w.
  all: first
    [ right; eexists; repeat split; [intros [_ [=]]]
    | left; repeat split; [by eexists | intros ? [_ [=]]] ].
Qed.

Lemma installer_outcome_witness :
  let tr := trace (replay world_handle offline_world) in
  let pre := [EvCmd (Debug ("Finding latest version from '" +:+ manifest_url
                              +:+ "'"))] in
  let ev := EvCall (Request_get manifest_url)
                   (inl (External ("GET " +:+ manifest_url))) in
  tr = pre ++ ev :: [EvCmd (SetResult Failed
                              (Err (External ("GET " +:+ manifest_url))))].
Proof.
  cbv zeta.
  pose proof (proj2 (@installer_outcome linux_host World world_handle
                       offline_world)) as Hstop.
  cbv zeta in Hstop.
  assert (Htr : exists post,
    trace (@task linux_host World world_handle offline_world) =
    [EvCmd (Debug ("Finding latest version from '" +:+ manifest_url +:+ "'"))]
    ++ EvCall (Request_get manifest_url)
              (inl (External ("GET " +:+ manifest_url))) :: post).
  { eexists. vm_compute. reflexivity. }
  destruct Htr as [post Htr].
  unfold replay. rewrite Htr. do 2 f_equal.
  exact (Hstop _ _ _ _ Htr eq_refl).
Defined.

(** C2: when the manifest holds no release record that answers the
    requested channel and version (for example channel "beta", version
    "9.9.9"), the run fails with a SelectionError, the dereference of the
    absent record, and FlutterToolPath is never set. *)
Theorem no_match_fails `{Host} {W : Type} `{Collaborators W} (w : W)
    (releaseData : ReleaseData) (channel version : string) :
  let tr := trace (task w) in
  parsed tr = [releaseData] ->
  inputs_read tr = [("channel", channel); ("version", version)] ->
  Forall (fun item => ~ answers_request releaseData channel version item)
         (releases releaseData) ->
  (exists e, SelectionError e /\ run_failed tr e /\ raised tr = [e]) /\
  variables tr = [].
Proof.
  cbv zeta. unfold SelectionError, run_failed, answers_request, task, run_catch.
  exec main w.
  all: intros Hm Hi Hnone; simplify_eq.
  all: try match goal with
       | Hf : List.find _ _ = Some _ |- _ =>
           first [ apply latest_found in Hf | apply version_found in Hf ];
           destruct Hf as [Hans Hin];
           rewrite Forall_forall in Hnone; destruct (Hnone _ Hin);
           by rewrite_version_test
       end.
  all: split; [by eexists|done].
Qed.

Lemma no_match_fails_witness :
  let tr := trace (replay world_handle (scenario_world "beta" "9.9.9" ∅)) in
  (exists e, SelectionError e /\ run_failed tr e /\ raised tr = [e]) /\
  variables tr = [].
Proof.
  apply (@no_match_fails linux_host World world_handle
           (scenario_world "beta" "9.9.9" ∅) scenario_manifest "beta" "9.9.9").
  - vm_compute. reflexivity.
  - vm_compute. reflexivity.
  - repeat constructor; cbn; intros [Hv Hc]; discriminate.
Defined.

(** C7: when the first cache lookup hits, the run makes no download, no
    extraction and no store, and publishes FlutterToolPath as the path of
    the cache entry joined with "flutter/bin". *)
Theorem cache_hit_publishes `{Host} {W : Type} `{Collaborators W} (w : W)
    (key : CacheKey) (p : string) :
  let tr := trace (task w) in
  head (lookups tr) = Some (key, inr (Some p)) -> p <> "" ->
  List.filter is_download (requests tr) = [] /\
  List.filter is_extraction (requests tr) = [] /\
  List.filter is_store (requests tr) = [] /\
  lookups tr = [(key, inr (Some p))] /\
  variables tr =
    [(FLUTTER_TOOL_PATH_ENV_VAR,
      path_join_strings [p; FLUTTER_EXE_RELATIVEPATH])] /\
  results tr = [(Succeeded, Msg "Installed")].
Proof.
  cbv zeta. unfold task, run_catch.
  exec main w.
  all: intros Hhit Hp; simplify_eq.
  all: try (hit_is_truthy; discriminate).
  all: done.
Qed.

Lemma cache_hit_publishes_witness :
  let key := ("Flutter", "1.2.3", "linux") in
  let tr := trace (replay world_handle
                     (scenario_world "stable" "latest"
                        {[ key := "/cache/Flutter/1.2.3/linux" ]})) in
  List.filter is_download (requests tr) = [] /\
  List.filter is_extraction (requests tr) = [] /\
  List.filter is_store (requests tr) = [] /\
  lookups tr = [(key, inr (Some "/cache/Flutter/1.2.3/linux"))] /\
  variables tr =
    [("FlutterToolPath", "/cache/Flutter/1.2.3/linux/flutter/bin")] /\
  results tr = [(Succeeded, Msg "Installed")].
Proof.
  apply (@cache_hit_publishes linux_host World world_handle
           (scenario_world "stable" "latest"
              {[ ("Flutter", "1.2.3", "linux") := "/cache/Flutter/1.2.3/linux" ]})
           ("Flutter", "1.2.3", "linux") "/cache/Flutter/1.2.3/linux").
  - vm_compute. reflexivity.
  - discriminate.
Defined.

(** C8: in a run that misses the cache and then downloads, extracts and
    stores, the lookup made right after the store, with the same key, hits
    (by the contract of the tool cache) and the run succeeds; if that
    lookup still misses, the run fails with the inconsistency as its error,
    after exactly one download and two lookups: nothing is retried. *)
Theorem relookup_after_store `{Host} {W : Type} `{Collaborators W} :
  (cache_contract W ->
   forall (w : W) d key p,
     In (d, key, inr p) (stores (trace (task w))) ->
     exists miss p',
       lookups (trace (task w)) = [(key, inr miss); (key, inr (Some p'))] /\
       truthy miss = false /\ p' <> "" /\
       variables (trace (task w)) =
         [(FLUTTER_TOOL_PATH_ENV_VAR,
           path_join_strings [p'; FLUTTER_EXE_RELATIVEPATH])] /\
       results (trace (task w)) = [(Succeeded, Msg "Installed")]) /\
  (forall (w : W) key,
     lookups (trace (task w)) !! 1%nat = Some (key, inr None) ->
     (exists e, CacheInconsistencyError e /\ run_failed (trace (task w)) e) /\
     length (lookups (trace (task w))) = 2%nat /\
     length (List.filter is_download (requests (trace (task w)))) = 1%nat).
Proof.
  unfold CacheInconsistencyError, run_failed. split.
  - intros Hcache w d key p. unfold task, run_catch.
    exec main w.
    all: intros Hstore; try done.
    all: destruct Hstore as [Hstore|[]]; simplify_eq.
    all: use_contract Hcache; simplify_eq.
    all: eexists _, _; repeat split; [by apply negb_true_iff|done].
  - intros w key. unfold task, run_catch.
    exec main w.
    all: intros Hmiss; simplify_eq.
    all: split; [by eexists|done].
Qed.

Lemma relookup_after_store_witness :
  let key := ("Flutter", "1.2.3", "linux") in
  let w := scenario_world "stable" "latest" ∅ in
  (exists miss p',
     lookups (trace (replay world_handle w))
       = [(key, inr miss); (key, inr (Some p'))] /\
     truthy miss = false /\ p' <> "" /\
     variables (trace (replay world_handle w)) =
       [(FLUTTER_TOOL_PATH_ENV_VAR,
         posix_join [p'; FLUTTER_EXE_RELATIVEPATH])] /\
     results (trace (replay world_handle w)) = [(Succeeded, Msg "Installed")])
  /\
  ((exists e, CacheInconsistencyError e /\
              run_failed (trace (replay lossy_handle w)) e) /\
   length (lookups (trace (replay lossy_handle w))) = 2%nat /\
   length (List.filter is_download
             (requests (trace (replay lossy_handle w)))) = 1%nat).
Proof.
  cbv zeta. split.
  - apply (proj1 (@relookup_after_store linux_host World world_handle)
             world_handle_contract
             (scenario_world "stable" "latest" ∅)
             "/tmp/download-u.unzipped" ("Flutter", "1.2.3", "linux")
             "/cache/Flutter/1.2.3/linux").
    vm_compute. left. reflexivity.
  - apply (proj2 (@relookup_after_store linux_host World lossy_handle)
             (scenario_world "stable" "latest" ∅)
             ("Flutter", "1.2.3", "linux")).
    vm_compute. reflexivity.
Defined.

(** C9: every cache lookup and every cache store of a run uses the version
    field of the release record the request resolved to as the version of
    its key, with tool name "Flutter" and the host architecture; a request
    for "latest" is looked up and stored under the version of the record it
    resolved to. *)
Theorem cache_keys_use_resolved_version `{Host} {W : Type} `{Collaborators W}
    (w : W) (key : CacheKey) :
  let tr := trace (task w) in
  In key (cache_keys tr) ->
  exists releaseData channel version item,
    parsed tr = [releaseData] /\
    inputs_read tr = [("channel", channel); ("version", version)] /\
    select_release releaseData channel version = Some (Some item) /\
    key = (FLUTTER_TOOL_NAME, Release.version item, findArchitecture).
Proof.
  cbv zeta. unfold task, run_catch, select_release.
  exec main w.
  all: intros Hkey; repeat destruct Hkey as [<-|Hkey]; try done.
  all: eexists _, _, _, _; repeat split.
  all: rewrite_version_test.
  all: cbn; match goal with Hf : List.find _ _ = _ |- _ => by rewrite Hf end.
Qed.

Lemma cache_keys_use_resolved_version_witness :
  let tr := trace (replay world_handle (scenario_world "stable" "latest" ∅)) in
  cache_keys tr = [("Flutter", "1.2.3", "linux"); ("Flutter", "1.2.3", "linux");
                   ("Flutter", "1.2.3", "linux")] /\
  exists releaseData channel version item,
    parsed tr = [releaseData] /\
    inputs_read tr = [("channel", channel); ("version", version)] /\
    select_release releaseData channel version = Some (Some item) /\
    ("Flutter", "1.2.3", "linux")
      = (FLUTTER_TOOL_NAME, Release.version item, @findArchitecture linux_host).
Proof.
  cbv zeta. split; [vm_compute; reflexivity|].
  apply (@cache_keys_use_resolved_version linux_host World world_handle
           (scenario_world "stable" "latest" ∅) ("Flutter", "1.2.3", "linux")).
  vm_compute. left. reflexivity.
Defined.

(** C10: the channel argument of downloadAndCacheSdk changes nothing: the
    program is the same for every channel, and whatever the URL and the
    channel, the only cache key it uses is ("Flutter", version,
    architecture), so releases of one version and architecture on different
    channels share one cache entry. *)
Theorem channel_unused `{Host} (versionSpec arch : string) :
  (forall downloadUrl channel channel',
     downloadAndCacheSdk downloadUrl versionSpec channel arch =
     downloadAndCacheSdk downloadUrl versionSpec channel' arch) /\
  (forall {W : Type} `{Collaborators W} (w : W) downloadUrl channel key,
     In key (cache_keys (trace (run
        (downloadAndCacheSdk downloadUrl versionSpec channel arch) w))) ->
     key = (FLUTTER_TOOL_NAME, versionSpec, arch)).
Proof.
  split; [done|]. intros W C w downloadUrl channel key.
  exec (downloadAndCacheSdk downloadUrl versionSpec channel arch) w.
  all: intros Hkey; repeat destruct Hkey as [<-|Hkey]; done.
Qed.

Lemma channel_unused_witness :
  let w := scenario_world "stable" "latest" ∅ in
  let store channel url :=
    cache_keys (trace (@run World world_handle unit
      (@downloadAndCacheSdk linux_host url "1.2.3" channel "linux") w)) in
  store "stable" "https://example.org/releases/a.zip"
    = [("Flutter", "1.2.3", "linux")] /\
  store "beta" "https://example.org/releases/b.tar.xz"
    = [("Flutter", "1.2.3", "linux")] /\
  ("Flutter", "1.2.3", "linux") = (FLUTTER_TOOL_NAME, "1.2.3", "linux").
Proof.
  cbv zeta. split; [vm_compute; reflexivity|]. split; [vm_compute; reflexivity|].
  apply (proj2 (@channel_unused linux_host "1.2.3" "linux") World world_handle
           (scenario_world "stable" "latest" ∅)
           "https://example.org/releases/b.tar.xz" "beta").
  vm_compute. left. reflexivity.
Defined.

(** C5: after the download, a URL that ends in ".zip" is extracted by
    [extractZip] on the downloaded file and the tar path is not entered; any
    other URL is never unzipped: the task reads the agent's temp root,
    draws a new identifier, creates the directory named by the two and runs
    tar on the downloaded file with that directory as target. *)
Theorem archive_dispatch `{Host} {W : Type} `{Collaborators W}
    (downloadUrl versionSpec channel arch : string) (w w1 : W)
    (bundleZip : string) :
  handle (Tool_downloadTool downloadUrl) w = (inr bundleZip, w1) ->
  let rq := requests (trace (run
              (downloadAndCacheSdk downloadUrl versionSpec channel arch) w)) in
  if endsWith downloadUrl ".zip"
  then (exists rest,
          rq = RqDownload downloadUrl :: RqExtractZip bundleZip :: rest) /\
       List.filter is_tar_path rq = []
  else List.filter is_unzip rq = [] /\
       forall root u (w2 w3 w4 : W),
         handle (Task_getVariable "Agent.TempDirectory") w1
           = (inr (Some root), w2) ->
         handle Uuidv4 w2 = (inr u, w3) ->
         handle (Task_mkdirP (path_join_strings [root; u])) w3
           = (inr tt, w4) ->
         exists rest,
           rq = [RqDownload downloadUrl;
                 RqVariable "Agent.TempDirectory";
                 RqUuid;
                 RqMkdirP (path_join_strings [root; u]);
                 RqExec "tar" ["-xJC"; path_join_strings [root; u];
                               "-f"; bundleZip]] ++ rest.
Proof.
  intros Hdl. cbv zeta.
  exec (downloadAndCacheSdk downloadUrl versionSpec channel arch) w.
  all: same_answers.
  all: try (split; [by eexists|done]).
  all: split; [done|]; intros root u w2' w3' w4' Hroot Hu Hmk; same_answers.
  all: by eexists.
Qed.

Lemma archive_dispatch_witness :
  let w := scenario_world "stable" "latest" ∅ in
  let zip := "https://example.org/releases/a.zip" in
  let xz := "https://example.org/releases/b.tar.xz" in
  let rq url :=
    requests (trace (@run World world_handle unit
      (@downloadAndCacheSdk linux_host url "1.2.3" "stable" "linux") w)) in
  ((exists rest,
      rq zip = RqDownload zip :: RqExtractZip "/tmp/download-u" :: rest) /\
   List.filter is_tar_path (rq zip) = []) /\
  (exists rest,
     rq xz = [RqDownload xz;
              RqVariable "Agent.TempDirectory";
              RqUuid;
              RqMkdirP "/agent/tmp/uu";
              RqExec "tar" ["-xJC"; "/agent/tmp/uu"; "-f"; "/tmp/download-u"]]
             ++ rest).
Proof.
  cbv zeta.
  set (w := scenario_world "stable" "latest" ∅).
  set (w1 := (next_uuid w).2).
  set (w3 := (next_uuid w1).2).
  split.
  - assert (Hdl : @handle World world_handle _
                    (Tool_downloadTool "https://example.org/releases/a.zip") w
                  = (inr "/tmp/download-u", w1))
      by (vm_compute; reflexivity).
    exact (@archive_dispatch linux_host World world_handle
             "https://example.org/releases/a.zip" "1.2.3" "stable" "linux"
             w w1 "/tmp/download-u" Hdl).
  - assert (Hdl : @handle World world_handle _
                    (Tool_downloadTool "https://example.org/releases/b.tar.xz") w
                  = (inr "/tmp/download-u", w1))
      by (vm_compute; reflexivity).
    apply (proj2 (@archive_dispatch linux_host World world_handle
             "https://example.org/releases/b.tar.xz" "1.2.3" "stable" "linux"
             w w1 "/tmp/download-u" Hdl) "/agent/tmp" "uu" w1 w3 w3).
    + vm_compute. reflexivity.
    + vm_compute. reflexivity.
    + vm_compute. reflexivity.
Defined.

(** End-to-end scenario 1: the stable channel's latest release, on an empty
    cache. *)
Example scenario_1 :
  let tr := trace (replay world_handle (scenario_world "stable" "latest" ∅)) in
  requests tr =
    [RqGet manifest_url;
     RqParse "manifest";
     RqInput "channel" true;
     RqInput "version" true;
     RqFind ("Flutter", "1.2.3", "linux");
     RqDownload "https://example.org/releases/a.zip";
     RqExtractZip "/tmp/download-u";
     RqCacheDir "/tmp/download-u.unzipped" ("Flutter", "1.2.3", "linux");
     RqFind ("Flutter", "1.2.3", "linux")] /\
  variables tr = [("FlutterToolPath", "/cache/Flutter/1.2.3/linux/flutter/bin")] /\
  results tr = [(Succeeded, Msg "Installed")].
Proof. vm_compute. done. Qed.

(** * Further properties of the task *)

(** ** Archives *)

Lemma substring_all (s : string) : substring 0 (String.length s) s = s.
Proof. induction s as [|c s IH]; cbn; [done|]. by rewrite IH. Qed.

Lemma append_cons (c : Ascii.ascii) (a b : string) :
  String c a +:+ b = String c (a +:+ b).
Proof. reflexivity. Qed.

Lemma substring_suffix (pre suf : string) :
  substring (String.length pre) (String.length suf) (pre +:+ suf) = suf.
Proof.
  induction pre as [|c pre IH]; [apply substring_all|].
  rewrite append_cons. exact IH.
Qed.

Lemma substring_split (s : string) (k : nat) :
  (k <= String.length s)%nat ->
  s = substring 0 k s +:+ substring k (String.length s - k) s.
Proof.
  revert k; induction s as [|c s IH]; intros [|k] Hk; cbn in *.
  - done.
  - lia.
  - by rewrite substring_all.
  - rewrite append_cons. f_equal. apply IH. lia.
Qed.

Lemma length_append (a b : string) :
  String.length (a +:+ b) = (String.length a + String.length b)%nat.
Proof.
  induction a as [|c a IH]; [done|]. rewrite append_cons. cbn. by rewrite IH.
Qed.

Lemma endsWith_iff (s suffix : string) :
  endsWith s suffix = true <-> exists pre, s = pre +:+ suffix.
Proof.
  unfold endsWith. rewrite andb_true_iff, Nat.leb_le, String.eqb_eq. split.
  - intros [Hle Hsub].
    exists (substring 0 (String.length s - String.length suffix) s).
    pose proof (substring_split s (String.length s - String.length suffix)
                  ltac:(lia)) as Hs.
    replace (String.length s - (String.length s - String.length suffix))%nat
      with (String.length suffix) in Hs by lia.
    by rewrite Hsub in Hs.
  - intros [pre ->]. rewrite length_append. split; [lia|].
    replace (String.length pre + String.length suffix - String.length suffix)%nat
      with (String.length pre) by lia.
    apply substring_suffix.
Qed.

(** X1: A URL made of any prefix and ".zip" is unzipped right after its
    download; a URL of no such form (".tar.xz", or ".ZIP" in upper case) is
    never unzipped and enters the tar path. *)
Theorem zip_suffix_dispatch `{Host} {W : Type} `{Collaborators W}
    (downloadUrl versionSpec channel arch : string) (w w1 : W)
    (bundleZip : string) :
  handle (Tool_downloadTool downloadUrl) w = (inr bundleZip, w1) ->
  let rq := requests (trace (run
              (downloadAndCacheSdk downloadUrl versionSpec channel arch) w)) in
  ((exists pre, downloadUrl = pre +:+ ".zip") ->
   exists rest, rq = RqDownload downloadUrl :: RqExtractZip bundleZip :: rest) /\
  ((forall pre, downloadUrl <> pre +:+ ".zip") ->
   List.filter is_unzip rq = [] /\
   exists rest, rq = RqDownload downloadUrl
                     :: RqVariable "Agent.TempDirectory" :: rest).
Proof.
  intros Hdl. cbv zeta.
  exec (downloadAndCacheSdk downloadUrl versionSpec channel arch) w.
  all: same_answers.
  all: match goal with Hz : endsWith _ _ = _ |- _ =>
         first [ apply endsWith_iff in Hz
               | apply not_true_iff_false in Hz; rewrite endsWith_iff in Hz ];
         rename Hz into Hends
       end.
  all: split; [intros Hzip|intros Hxz].
  all: try (by destruct (Hends Hzip)).
  all: try (by destruct Hends as [pre Hpre]; destruct (Hxz pre Hpre)).
  all: try (split; [done|]); by eexists.
Qed.

Lemma zip_suffix_dispatch_witness :
  let w := scenario_world "stable" "latest" ∅ in
  let rq url :=
    requests (trace (@run World world_handle unit
      (@downloadAndCacheSdk linux_host url "1.2.3" "stable" "linux") w)) in
  (exists rest,
     rq "https://example.org/releases/a.zip"
       = RqDownload "https://example.org/releases/a.zip"
         :: RqExtractZip "/tmp/download-u" :: rest) /\
  (List.filter is_unzip (rq "https://example.org/releases/b.tar.xz") = [] /\
   exists rest,
     rq "https://example.org/releases/b.tar.xz"
       = RqDownload "https://example.org/releases/b.tar.xz"
         :: RqVariable "Agent.TempDirectory" :: rest).
Proof.
  cbv zeta.
  set (w := scenario_world "stable" "latest" ∅).
  set (w1 := (next_uuid w).2).
  split.
  - assert (Hdl : @handle World world_handle _
                    (Tool_downloadTool "https://example.org/releases/a.zip") w
                  = (inr "/tmp/download-u", w1))
      by (vm_compute; reflexivity).
    apply (proj1 (@zip_suffix_dispatch linux_host World world_handle
             "https://example.org/releases/a.zip" "1.2.3" "stable" "linux"
             w w1 "/tmp/download-u" Hdl)).
    by exists "https://example.org/releases/a".
  - assert (Hdl : @handle World world_handle _
                    (Tool_downloadTool "https://example.org/releases/b.tar.xz") w
                  = (inr "/tmp/download-u", w1))
      by (vm_compute; reflexivity).
    apply (proj2 (@zip_suffix_dispatch linux_host World world_handle
             "https://example.org/releases/b.tar.xz" "1.2.3" "stable" "linux"
             w w1 "/tmp/download-u" Hdl)).
    intros pre Hpre. apply (f_equal (fun s => endsWith s ".zip")) in Hpre.
    rewrite (proj2 (endsWith_iff (pre +:+ ".zip") ".zip")) in Hpre by eauto.
    vm_compute in Hpre. discriminate.
Defined.



(** X3: When the agent provides no temp directory, extractTarXZ without a
    destination still draws an identifier, then fails in path.join: no
    directory is created and tar does not run. *)
Theorem missing_temp_directory `{Host} {W : Type} `{Collaborators W}
    (file u : string) (w w1 w2 : W) :
  handle (Task_getVariable "Agent.TempDirectory") w = (inr None, w1) ->
  handle Uuidv4 w1 = (inr u, w2) ->
  let r := run (extractTarXZ file None) w in
  outcome r = inl PathNotString /\
  requests (trace r) = [RqVariable "Agent.TempDirectory"; RqUuid].
Proof.
  intros Hvar Hu. cbv zeta.
  exec (extractTarXZ file None) w.
  all: same_answers.
  done.
Qed.

Lemma missing_temp_directory_witness :
  let r := @run World world_handle string
             (@extractTarXZ linux_host "/tmp/a.tar.xz" None) offline_world in
  outcome r = inl PathNotString /\
  requests (trace r) = [RqVariable "Agent.TempDirectory"; RqUuid].
Proof.
  apply (@missing_temp_directory linux_host World world_handle
           "/tmp/a.tar.xz" "u" offline_world offline_world
           (next_uuid offline_world).2).
  - vm_compute. reflexivity.
  - vm_compute. reflexivity.
Defined.

(** X4: downloadAndCacheSdk stores at most once, under ("Flutter", version,
    architecture), and only what the extraction of the downloaded file
    produced: the directory extractZip answered for a ".zip" URL, the
    directory created for tar otherwise.  Before a store nothing has
    failed. *)
Theorem store_follows_extraction `{Host} {W : Type} `{Collaborators W}
    (downloadUrl versionSpec channel arch : string) (w : W)
    (d : string) (key : CacheKey) (stored : exn + string) :
  let tr := trace (run
              (downloadAndCacheSdk downloadUrl versionSpec channel arch) w) in
  In (d, key, stored) (stores tr) ->
  key = (FLUTTER_TOOL_NAME, versionSpec, arch) /\
  stores tr = [(d, key, stored)] /\
  (forall e, In e (raised tr) -> stored = inl e) /\
  exists file,
    downloads tr = [(downloadUrl, inr file)] /\
    if endsWith downloadUrl ".zip"
    then unzips tr = [(file, inr d)] /\
         requests tr = [RqDownload downloadUrl; RqExtractZip file;
                        RqCacheDir d key]
    else requests tr = [RqDownload downloadUrl;
                        RqVariable "Agent.TempDirectory"; RqUuid; RqMkdirP d;
                        RqExec "tar" ["-xJC"; d; "-f"; file];
                        RqCacheDir d key].
Proof.
  cbv zeta.
  exec (downloadAndCacheSdk downloadUrl versionSpec channel arch) w.
  all: intros Hstore; try done.
  all: destruct Hstore as [Hstore|[]]; simplify_eq.
  all: repeat split; try (by intros e0 [<-|[]]); try (by intros e0 []).
  all: by eexists.
Qed.

Lemma store_follows_extraction_witness :
  let tr := trace (@run World world_handle unit
              (@downloadAndCacheSdk linux_host
                 "https://example.org/releases/b.tar.xz" "1.0.0" "stable"
                 "linux")
              (scenario_world "stable" "1.0.0" ∅)) in
  let key := ("Flutter", "1.0.0", "linux") in
  key = (FLUTTER_TOOL_NAME, "1.0.0", "linux") /\
  stores tr = [("/agent/tmp/uu", key, inr "/cache/Flutter/1.0.0/linux")] /\
  (forall e, In e (raised tr) -> inr "/cache/Flutter/1.0.0/linux" = inl e) /\
  exists file,
    downloads tr = [("https://example.org/releases/b.tar.xz", inr file)] /\
    requests tr = [RqDownload "https://example.org/releases/b.tar.xz";
                     RqVariable "Agent.TempDirectory"; RqUuid;
                     RqMkdirP "/agent/tmp/uu";
                     RqExec "tar" ["-xJC"; "/agent/tmp/uu"; "-f"; file];
                     RqCacheDir "/agent/tmp/uu" key].
Proof.
  cbv zeta.
  apply (@store_follows_extraction linux_host World world_handle
           "https://example.org/releases/b.tar.xz" "1.0.0" "stable" "linux"
           (scenario_world "stable" "1.0.0" ∅)
           "/agent/tmp/uu" ("Flutter", "1.0.0", "linux")
           (inr "/cache/Flutter/1.0.0/linux")).
  vm_compute. left. reflexivity.
Defined.

(** ** Selection *)

Lemma select_latest (releaseData : ReleaseData) (channel : string) :
  select_release releaseData channel "latest" =
  Some (List.find (fun item => strict_eq (Release.hash item)
                                 (current_release releaseData !! channel))
                  (releases releaseData)).
Proof. reflexivity. Qed.

Lemma select_version (releaseData : ReleaseData) (channel version : string) :
  version <> "latest" ->
  select_release releaseData channel version =
  Some (List.find (fun item => String.eqb (Release.version item) version
                               && String.eqb (Release.channel item) channel)
                  (releases releaseData)).
Proof.
  intros Hv. unfold select_release. apply String.eqb_neq in Hv as ->.
  cbn. by destruct (List.find _ _).
Qed.

Lemma find_unique {A B : Type} (f : A -> B) (test : A -> bool)
    (l : list A) (x : A) :
  NoDup (f <$> l) -> (forall y, test y = true <-> f y = f x) -> x ∈ l ->
  List.find test l = Some x.
Proof.
  intros Hnd Htest. induction l as [|y l IH]; intros Hx.
  - by apply elem_of_nil in Hx.
  - rewrite fmap_cons in Hnd. apply NoDup_cons in Hnd as [Hy Hnd]. cbn.
    apply elem_of_cons in Hx as [->|Hx].
    + by rewrite (proj2 (Htest y) eq_refl).
    + destruct (test y) eqn:Hty; [|by apply IH].
      apply Htest in Hty. destruct Hy. rewrite Hty.
      by apply list_elem_of_fmap_2.
Qed.

(** X5: A request for "latest" and a request for the version it resolved to
    agree: when the record of the channel's current hash is a record of that
    channel, asking for its version by name selects a record with the same
    version and channel, hence the same cache key. *)
Theorem latest_and_explicit_agree (releaseData : ReleaseData)
    (channel : string) (item : Release.t) :
  select_release releaseData channel "latest" = Some (Some item) ->
  Release.channel item = channel ->
  Release.version item <> "latest" ->
  exists item',
    select_release releaseData channel (Release.version item)
      = Some (Some item') /\
    Release.version item' = Release.version item /\
    Release.channel item' = channel.
Proof.
  rewrite select_latest. intros [= Hlatest] Hchannel Hversion.
  rewrite select_version by done.
  apply latest_found in Hlatest as [_ Hin].
  destruct (List.find _ _) as [item'|] eqn:Hfind.
  - exists item'. split; [done|]. by apply version_found in Hfind as [[? ?] _].
  - apply list_elem_of_In in Hin.
    pose proof (find_none _ _ Hfind _ Hin) as Hno. cbn in Hno.
    rewrite String.eqb_refl, Hchannel, String.eqb_refl in Hno. done.
Qed.

Lemma latest_and_explicit_agree_witness :
  exists item',
    select_release scenario_manifest "stable" "1.2.3" = Some (Some item') /\
    Release.version item' = "1.2.3" /\ Release.channel item' = "stable".
Proof.
  apply (latest_and_explicit_agree scenario_manifest "stable"
           (Release.Build "h1" "1.2.3" "stable" "a.zip")).
  - vm_compute. reflexivity.
  - reflexivity.
  - discriminate.
Defined.

(** X6: When the hashes of a manifest are pairwise distinct, a request for
    "latest" resolves to a record exactly when that record is in the
    manifest and carries the channel's current hash: the order of the
    records plays no part. *)
Theorem unique_hash_selection (releaseData : ReleaseData)
    (channel : string) (item : Release.t) :
  NoDup (Release.hash <$> releases releaseData) ->
  select_release releaseData channel "latest" = Some (Some item) <->
  item ∈ releases releaseData /\
  current_release releaseData !! channel = Some (Release.hash item).
Proof.
  intros Hnd. rewrite select_latest. split.
  - intros [= Hfind]. by apply latest_found in Hfind as [? ?].
  - intros [Hin Hcur]. f_equal.
    apply (find_unique Release.hash); [done| |done].
    intros y. rewrite Hcur. cbn. apply String.eqb_eq.
Qed.

Lemma unique_hash_selection_witness :
  select_release scenario_manifest "stable" "latest"
    = Some (Some (Release.Build "h1" "1.2.3" "stable" "a.zip")) <->
  Release.Build "h1" "1.2.3" "stable" "a.zip" ∈ releases scenario_manifest /\
  current_release scenario_manifest !! "stable" = Some "h1".
Proof.
  apply (unique_hash_selection scenario_manifest "stable"
           (Release.Build "h1" "1.2.3" "stable" "a.zip")).
  apply (bool_decide_unpack (NoDup _)). vm_compute. exact I.
Defined.

(** ** Order of the steps *)

(** X7: The first call of every run is the GET of the manifest of the host
    architecture.  When no manifest comes out of it (the GET or the parse
    failed), the run fails having read no input and touched neither the
    cache nor an archive. *)
Theorem manifest_fetched_first `{Host} {W : Type} `{Collaborators W} (w : W) :
  let tr := trace (task w) in
  let url := releasesUrl findArchitecture in
  head (requests tr) = Some (RqGet url) /\
  (parsed tr = [] ->
   inputs_read tr = [] /\ cache_keys tr = [] /\ downloads tr = [] /\
   (requests tr = [RqGet url] \/
    exists body, requests tr = [RqGet url; RqParse body]) /\
   exists e, run_failed tr e).
Proof.
  cbv zeta. unfold run_failed, task, run_catch.
  exec main w.
  all: split; [done|]; intros Hparsed; try done.
  all: repeat split; eauto.
Qed.

Lemma manifest_fetched_first_witness :
  let tr := trace (replay world_handle offline_world) in
  inputs_read tr = [] /\ cache_keys tr = [] /\ downloads tr = [] /\
  (requests tr = [RqGet manifest_url] \/
   exists body, requests tr = [RqGet manifest_url; RqParse body]) /\
  exists e, run_failed tr e.
Proof.
  apply (proj2 (@manifest_fetched_first linux_host World world_handle
                  offline_world)).
  vm_compute. reflexivity.
Defined.

(** X8: A run downloads at most once, only after its first cache lookup
    answered no path, and what it downloads is [base_url + "/" + archive] of
    the release record the request resolved to. *)
Theorem download_only_after_miss `{Host} {W : Type} `{Collaborators W}
    (w : W) (url : string) (downloaded : exn + string) :
  let tr := trace (task w) in
  In (url, downloaded) (downloads tr) ->
  downloads tr = [(url, downloaded)] /\
  exists releaseData channel version item key miss,
    parsed tr = [releaseData] /\
    inputs_read tr = [("channel", channel); ("version", version)] /\
    select_release releaseData channel version = Some (Some item) /\
    url = base_url releaseData +:+ "/" +:+ Release.archive item /\
    head (lookups tr) = Some (key, inr miss) /\ truthy miss = false.
Proof.
  cbv zeta. unfold task, run_catch, select_release.
  exec main w.
  all: intros Hdl; try done.
  all: destruct Hdl as [Hdl|[]]; simplify_eq.
  all: split; [done|]; eexists _, _, _, _, _, _; repeat split;
       [|by apply negb_true_iff].
  all: rewrite_version_test.
  all: cbn; match goal with Hf : List.find _ _ = _ |- _ => by rewrite Hf end.
Qed.

Lemma download_only_after_miss_witness :
  let tr := trace (replay world_handle (scenario_world "stable" "1.0.0" ∅)) in
  let url := "https://example.org/releases/b.tar.xz" in
  downloads tr = [(url, inr "/tmp/download-u")] /\
  exists releaseData channel version item key miss,
    parsed tr = [releaseData] /\
    inputs_read tr = [("channel", channel); ("version", version)] /\
    select_release releaseData channel version = Some (Some item) /\
    url = base_url releaseData +:+ "/" +:+ Release.archive item /\
    head (lookups tr) = Some (key, inr miss) /\ truthy miss = false.
Proof.
  apply (@download_only_after_miss linux_host World world_handle
           (scenario_world "stable" "1.0.0" ∅)
           "https://example.org/releases/b.tar.xz" (inr "/tmp/download-u")).
  vm_compute. left. reflexivity.
Defined.

(** X9: Whenever a run sets a variable, it is FlutterToolPath, and its value is
    the path the last cache lookup answered, joined with "flutter/bin":
    neither the directory of the extraction nor the value the store
    returned is published; nothing was raised and the result is
    Succeeded. *)
Theorem published_path_from_last_lookup `{Host} {W : Type} `{Collaborators W}
    (w : W) (name value : string) :
  let tr := trace (task w) in
  In (name, value) (variables tr) ->
  name = FLUTTER_TOOL_PATH_ENV_VAR /\
  (exists key p,
     last (lookups tr) = Some (key, inr (Some p)) /\
     value = path_join_strings [p; FLUTTER_EXE_RELATIVEPATH]) /\
  raised tr = [] /\
  results tr = [(Succeeded, Msg "Installed")].
Proof.
  cbv zeta. unfold task, run_catch.
  exec main w.
  all: intros Hvar; try done.
  all: destruct Hvar as [Hvar|[]]; simplify_eq.
  all: repeat split; by eexists _, _.
Qed.

Lemma published_path_from_last_lookup_witness :
  let tr := trace (replay world_handle (scenario_world "stable" "1.0.0" ∅)) in
  "FlutterToolPath" = FLUTTER_TOOL_PATH_ENV_VAR /\
  (exists key p,
     last (lookups tr) = Some (key, inr (Some p)) /\
     "/cache/Flutter/1.0.0/linux/flutter/bin"
       = posix_join [p; FLUTTER_EXE_RELATIVEPATH]) /\
  raised tr = [] /\
  results tr = [(Succeeded, Msg "Installed")].
Proof.
  apply (@published_path_from_last_lookup linux_host World world_handle
           (scenario_world "stable" "1.0.0" ∅)
           "FlutterToolPath" "/cache/Flutter/1.0.0/linux/flutter/bin").
  vm_compute. left. reflexivity.
Defined.

(** X10: A run makes at most two cache lookups, one download and one store; a
    second lookup is made only after a successful store, with the key of
    that store, which is the key of the first lookup. *)
Theorem lookup_again_only_after_store `{Host} {W : Type} `{Collaborators W}
    (w : W) :
  let tr := trace (task w) in
  (length (lookups tr) <= 2)%nat /\
  (length (downloads tr) <= 1)%nat /\
  (length (stores tr) <= 1)%nat /\
  forall key again,
    lookups tr !! 1%nat = Some (key, again) ->
    exists d p miss,
      stores tr = [(d, key, inr p)] /\
      lookups tr !! 0%nat = Some (key, inr miss) /\ truthy miss = false.
Proof.
  cbv zeta. unfold task, run_catch.
  exec main w.
  all: repeat split; try lia; intros key again Hagain; simplify_eq.
  all: eexists _, _, _; repeat split; by apply negb_true_iff.
Qed.

Lemma lookup_again_only_after_store_witness :
  let tr := trace (replay world_handle (scenario_world "stable" "latest" ∅)) in
  exists d p miss,
    stores tr = [(d, ("Flutter", "1.2.3", "linux"), inr p)] /\
    lookups tr !! 0%nat = Some (("Flutter", "1.2.3", "linux"), inr miss) /\
    truthy miss = false.
Proof.
  apply (proj2 (proj2 (proj2 (@lookup_again_only_after_store linux_host World
           world_handle (scenario_world "stable" "latest" ∅))))
           ("Flutter", "1.2.3", "linux")
           (inr (Some "/cache/Flutter/1.2.3/linux"))).
  vm_compute. reflexivity.
Defined.
